(** * go-a2a/a2a: the JSON-RPC envelope types and the A2A schema constructors

    A shallow embedding of [jsonrpc.go] (method names, the request
    identifier [id], [JSONRPCMessage], the error codes and the ten error
    constructors) and of the schema file of package [a2a] ([Part],
    [Metadata], [Message], [Artifact], their constructors and the
    string-typed enumerations) and of the options of package [server],
    followed by the properties the specification states about them and by
    further properties of the code.

    Conventions of the embedding:
    - a Go [string] is a [string] (a sequence of bytes);
    - a Go [int] is a [Z]; no constructor does arithmetic on it;
    - a Go [int32] is a [Z] together with its range check;
    - a pointer [*T] that a constructor fills with the address of one of its
      own parameters is an [option T]: [None] is the nil pointer, [Some v] a
      pointer to a cell holding [v];
    - an interface value [any] is an [option dynval]: [None] is the nil
      interface, [Some d] a dynamic type together with its value;
    - a slice is a [list]. *)

From Stdlib Require Import ZArith Bool List String Ascii Lia Eqdep_dec.
From Stdlib Require Strings.Byte.
Import ListNotations.
Open Scope string_scope.
Open Scope Z_scope.

(** ** Go base types *)

Definition int32_min : Z := -2147483648.
Definition int32_max : Z := 2147483647.

Definition in_int32 (z : Z) : bool := (int32_min <=? z) && (z <=? int32_max).

(** A 32-bit signed integer: the range is part of the type. *)
Record int32 : Type := mk_int32 {
  int32_val : Z;
  int32_inrange : in_int32 int32_val = true
}.

(** The dynamic values of an interface value that the development tells
    apart: each constructor of [dynval] is a dynamic type. [dyn_slice] is a
    [[]any] and [dyn_map] a [map[string]any], the shapes of structured JSON
    data. *)
#[local] Set Warnings "-register-all".
Inductive dynval : Type :=
| dyn_string (s : string)
| dyn_int32 (n : int32)
| dyn_int (n : Z)
| dyn_bool (b : bool)
| dyn_slice (l : list dynval)
| dyn_map (m : list (string * dynval)).
#[local] Set Warnings "register-all".

Definition any : Type := option dynval.

(** Go's [==] on two interface values: true when both are nil, or when they
    have the same dynamic type and equal dynamic values; false when the
    dynamic types differ. Comparing two values of one dynamic type that is
    not comparable (a slice, a map) panics: the answer is [None]. *)
Definition dynval_eqb (a b : dynval) : option bool :=
  match a, b with
  | dyn_string s, dyn_string t => Some (String.eqb s t)
  | dyn_int32 n, dyn_int32 m => Some (Z.eqb (int32_val n) (int32_val m))
  | dyn_int n, dyn_int m => Some (Z.eqb n m)
  | dyn_bool x, dyn_bool y => Some (Bool.eqb x y)
  | dyn_slice _, dyn_slice _ => None
  | dyn_map _, dyn_map _ => None
  | _, _ => Some false
  end.

Definition any_eqb (a b : any) : option bool :=
  match a, b with
  | None, None => Some true
  | Some x, Some y => dynval_eqb x y
  | _, _ => Some false
  end.

(** Go's [error]: nil or an error with its text. *)
Definition error : Type := option string.

(** ** jsonrpc.go: A2A RPC method names *)

Definition MethodSend : string := "tasks/send".
Definition MethodGet : string := "tasks/get".
Definition MethodCancel : string := "tasks/cancel".
Definition MethodPushNotificationSet : string := "tasks/pushNotification/set".
Definition MethodPushNotificationGet : string := "tasks/pushNotification/get".
Definition MethodSendSubscribe : string := "tasks/sendSubscribe".
Definition MethodResubscribe : string := "tasks/resubscribe".

(** The seven method names, in the order of the source. *)
Definition method_names : list string :=
  [ MethodSend; MethodGet; MethodCancel; MethodPushNotificationSet;
    MethodPushNotificationGet; MethodSendSubscribe; MethodResubscribe ].

(** ** jsonrpc.go: the identifier [type id struct { any }] *)

Record id : Type := mk_id { id_any : any }.

(** The zero value [id{}]. *)
Definition id_zero : id := {| id_any := None |}.

(** The type set [string | int32] of [NewID]'s type parameter. *)
Inductive IDType : Type := T_string | T_int32.

Definition IDType_sem (T : IDType) : Type :=
  match T with
  | T_string => string
  | T_int32 => int32
  end.

(** Conversion of a [T] to [any]: the dynamic type is [T] itself. *)
Definition to_any (T : IDType) : IDType_sem T -> any :=
  match T with
  | T_string => fun s => Some (dyn_string s)
  | T_int32 => fun n => Some (dyn_int32 n)
  end.

(** [func NewID[T string | int32](v T) id { return id{any: v} }] *)
Definition NewID (T : IDType) (v : IDType_sem T) : id :=
  {| id_any := to_any T v |}.

(** Go's [==] on the struct [id]: field by field. *)
Definition id_eqb (a b : id) : option bool := any_eqb (id_any a) (id_any b).

Definition holds_string (i : id) (s : string) : Prop :=
  id_any i = Some (dyn_string s).

Definition holds_int32 (i : id) (n : int32) : Prop :=
  id_any i = Some (dyn_int32 n).

(** ** jsonrpc.go: JSONRPCMessage *)

(** The struct embeds [ID] (an alias of [id]); the field is named after the
    type. Field names carry the struct's name, since [Message], [Data] and
    [Title] occur in more than one struct of the package. *)
Record JSONRPCMessage : Type := mk_JSONRPCMessage {
  JSONRPCMessage_JSONRPC : string;
  JSONRPCMessage_ID : id
}.

Definition NewJSONRPCMessage (i : id) : JSONRPCMessage :=
  {| JSONRPCMessage_JSONRPC := "2.0"; JSONRPCMessage_ID := i |}.

(** ** jsonrpc.go: error codes and JSONRPCError *)

Definition JSONParseErrorCode : Z := -32700.
Definition InvalidRequestErrorCode : Z := -32600.
Definition MethodNotFoundErrorCode : Z := -32601.
Definition InvalidParamsErrorCode : Z := -32602.
Definition InternalErrorCode : Z := -32603.

Definition TaskNotFoundErrorCode : Z := -32001.
Definition TaskNotCancelableErrorCode : Z := -32002.
Definition PushNotificationNotSupportedErrorCode : Z := -32003.
Definition UnsupportedOperationErrorCode : Z := -32004.
Definition ContentTypeNotSupportedErrorCode : Z := -32005.

Record JSONRPCError : Type := mk_JSONRPCError {
  JSONRPCError_Code : Z;
  JSONRPCError_Message : string;
  JSONRPCError_Data : any
}.

(** Each constructor returns the address of a fresh struct; the embedding
    returns the struct. A field the composite literal leaves out has its
    zero value: [Data] is the nil interface. *)

Definition NewJSONParseError : JSONRPCError :=
  {| JSONRPCError_Code := JSONParseErrorCode;
     JSONRPCError_Message := "Invalid JSON payload";
     JSONRPCError_Data := None |}.

Definition NewInvalidRequestError : JSONRPCError :=
  {| JSONRPCError_Code := InvalidRequestErrorCode;
     JSONRPCError_Message := "Request payload validation error";
     JSONRPCError_Data := None |}.

Definition NewMethodNotFoundError : JSONRPCError :=
  {| JSONRPCError_Code := MethodNotFoundErrorCode;
     JSONRPCError_Message := "Method not found";
     JSONRPCError_Data := None |}.

Definition NewInvalidParamsError : JSONRPCError :=
  {| JSONRPCError_Code := InvalidParamsErrorCode;
     JSONRPCError_Message := "Invalid parameters";
     JSONRPCError_Data := None |}.

Definition NewInternalError : JSONRPCError :=
  {| JSONRPCError_Code := InternalErrorCode;
     JSONRPCError_Message := "Internal error";
     JSONRPCError_Data := None |}.

Definition NewTaskNotFoundError : JSONRPCError :=
  {| JSONRPCError_Code := TaskNotFoundErrorCode;
     JSONRPCError_Message := "Task not found";
     JSONRPCError_Data := None |}.

Definition NewTaskNotCancelableError : JSONRPCError :=
  {| JSONRPCError_Code := TaskNotCancelableErrorCode;
     JSONRPCError_Message := "Task cannot be canceled";
     JSONRPCError_Data := None |}.

Definition NewPushNotificationNotSupportedError : JSONRPCError :=
  {| JSONRPCError_Code := PushNotificationNotSupportedErrorCode;
     JSONRPCError_Message := "Push Notification is not supported";
     JSONRPCError_Data := None |}.

Definition NewUnsupportedOperationError : JSONRPCError :=
  {| JSONRPCError_Code := UnsupportedOperationErrorCode;
     JSONRPCError_Message := "This operation is not supported";
     JSONRPCError_Data := None |}.

Definition NewContentTypeNotSupportedError : JSONRPCError :=
  {| JSONRPCError_Code := ContentTypeNotSupportedErrorCode;
     JSONRPCError_Message := "Content type not supported";
     JSONRPCError_Data := None |}.

(** An error carries the given code and the given, non-empty message. *)
Definition has_code_and_message (e : JSONRPCError) (code : Z) (message : string) : Prop :=
  JSONRPCError_Code e = code
  /\ JSONRPCError_Message e = message
  /\ message <> "".

(** ** jsonrpc.go: id.MarshalJSON and id.UnmarshalJSON

    Both methods hand their work to [sonic.ConfigDefault], the codec of the
    module github.com/bytedance/sonic, which is a dependency and not part of
    this package. The embedding takes from it only the json.Marshaler and
    json.Unmarshaler protocol of encoding/json, which sonic implements: a
    value whose type has a [MarshalJSON] (resp. [UnmarshalJSON]) method is
    encoded (resp. decoded) by calling that method.

    A call either returns a result or does not return; a function that may
    not return takes a bound [fuel] on the depth of the calls it may make
    and answers [None] when the bound is reached. *)

Definition bytes : Type := list Byte.byte.

(** [sonic.ConfigDefault.Marshal(v)] at an argument [v = &i] of type [*id].
    The method set of [*id] contains the value-receiver method
    [id.MarshalJSON], so [*id] implements json.Marshaler and the encoder
    obtains the encoding of [v] from [v.MarshalJSON()], passed here as
    [call_MarshalJSON]. [&i] is never nil. What the encoder does with bytes
    the method has returned is not modelled. *)
Definition sonic_Marshal_ptr_id
    (call_MarshalJSON : id -> option (bytes * error)) (v : id)
    : option (bytes * error) :=
  call_MarshalJSON v.

(** [func (i id) MarshalJSON() ([]byte, error) {
       return sonic.ConfigDefault.Marshal(&i) }] *)
Fixpoint id_MarshalJSON (fuel : nat) (i : id) : option (bytes * error) :=
  match fuel with
  | O => None
  | S fuel' => sonic_Marshal_ptr_id (id_MarshalJSON fuel') i
  end.

(** What a JSON decoder finds in its input: no JSON text, the literal
    [null], or another JSON value. *)
Inductive json_class : Type := json_invalid | json_null | json_value.

Section Decoding.

(** The scanner of the decoder, which belongs to sonic. *)
Variable classify : bytes -> json_class.

(** [sonic.ConfigDefault.Unmarshal(data, v)] at an argument [v = &i] of
    type [**id], [i] pointing to the cell whose content is [cell]. The
    decoder follows [v] to the [*id]; on the literal [null] it sets that
    pointer (the method's local variable [i]) to nil and leaves the cell
    alone; on another JSON value it finds that [*id] implements
    json.Unmarshaler and calls [i.UnmarshalJSON] with the value's bytes,
    passed here as [call_UnmarshalJSON]. The result is the cell's content
    afterwards and the error. *)
Definition sonic_Unmarshal_ptr_ptr_id
    (call_UnmarshalJSON : bytes -> id -> option (id * error))
    (data : bytes) (cell : id) : option (id * error) :=
  match classify data with
  | json_invalid => Some (cell, Some "invalid JSON")
  | json_null => Some (cell, None)
  | json_value => call_UnmarshalJSON data cell
  end.

(** [func (i *id) UnmarshalJSON(data []byte) error {
       *i = id{}
       return sonic.ConfigDefault.Unmarshal(data, &i) }]
    [cell] is the content of [*i] when the method is entered. *)
Fixpoint id_UnmarshalJSON (fuel : nat) (data : bytes) (cell : id)
    : option (id * error) :=
  match fuel with
  | O => None
  | S fuel' =>
      let cell := id_zero in
      sonic_Unmarshal_ptr_ptr_id (id_UnmarshalJSON fuel') data cell
  end.

(** Encoding an [id] and decoding the bytes into a fresh [id]. *)
Definition id_roundtrip (fuel : nat) (i : id) : option (id * error) :=
  match id_MarshalJSON fuel i with
  | None => None
  | Some (_, Some e) => Some (id_zero, Some e)
  | Some (data, None) => id_UnmarshalJSON fuel data id_zero
  end.

End Decoding.

(** ** Schema: roles and part types *)

Definition Role : Type := string.
Definition RoleUser : Role := "user".
Definition RoleAgent : Role := "agent".

Definition PartType : Type := string.
Definition PartTypeText : PartType := "text".
Definition PartTypeFile : PartType := "file".
Definition PartTypeData : PartType := "data".

(** ** Schema: Metadata, Part, Message, Artifact *)

Record Metadata : Type := mk_Metadata {
  Metadata_FileName : option string;
  Metadata_Title : option string;
  Metadata_Additional : any
}.

Record Part : Type := mk_Part {
  Part_Type : PartType;
  Part_Text : option string;
  Part_Data : any;
  Part_FileBytes : option bytes;
  Part_FileURI : option string;
  Part_MimeType : option string;
  Part_Metadata : option Metadata
}.

Record Message : Type := mk_Message {
  Message_Role : Role;
  Message_Parts : list Part
}.

Record Artifact : Type := mk_Artifact {
  Artifact_Parts : list Part;
  Artifact_Index : Z;
  Artifact_Title : string;
  Artifact_Labels : any
}.

(** ** Schema: constructors *)

Definition NewTextPart (text : string) : Part :=
  {| Part_Type := PartTypeText;
     Part_Text := Some text;
     Part_Data := None;
     Part_FileBytes := None;
     Part_FileURI := None;
     Part_MimeType := None;
     Part_Metadata := None |}.

Definition NewDataPart (data : any) : Part :=
  {| Part_Type := PartTypeData;
     Part_Text := None;
     Part_Data := data;
     Part_FileBytes := None;
     Part_FileURI := None;
     Part_MimeType := None;
     Part_Metadata := None |}.

Definition NewFilePart (fileBytes : bytes) (mimeType fileName : string) : Part :=
  {| Part_Type := PartTypeFile;
     Part_Text := None;
     Part_Data := None;
     Part_FileBytes := Some fileBytes;
     Part_FileURI := None;
     Part_MimeType := Some mimeType;
     Part_Metadata := Some {| Metadata_FileName := Some fileName;
                              Metadata_Title := None;
                              Metadata_Additional := None |} |}.

Definition NewFileUriPart (fileUri mimeType fileName : string) : Part :=
  {| Part_Type := PartTypeFile;
     Part_Text := None;
     Part_Data := None;
     Part_FileBytes := None;
     Part_FileURI := Some fileUri;
     Part_MimeType := Some mimeType;
     Part_Metadata := Some {| Metadata_FileName := Some fileName;
                              Metadata_Title := None;
                              Metadata_Additional := None |} |}.

(** The variadic [parts ...Part] is the slice of the arguments. *)
Definition NewUserMessage (parts : list Part) : Message :=
  {| Message_Role := RoleUser; Message_Parts := parts |}.

Definition NewAgentMessage (parts : list Part) : Message :=
  {| Message_Role := RoleAgent; Message_Parts := parts |}.

Definition NewArtifact (index : Z) (title : string) (parts : list Part) : Artifact :=
  {| Artifact_Parts := parts;
     Artifact_Index := index;
     Artifact_Title := title;
     Artifact_Labels := None |}.

(** ** Schema: the tagged-union discipline of a Part *)

(** A pointer or interface field is populated when it is not nil. *)
Definition populated {A : Type} (o : option A) : bool :=
  match o with
  | Some _ => true
  | None => false
  end.

Definition count (b : bool) : nat := if b then 1%nat else 0%nat.

(** How many of the payload fields Text, Data, FileBytes, FileURI are
    populated. *)
Definition payload_count (p : Part) : nat :=
  (count (populated (Part_Text p)) + count (populated (Part_Data p))
   + count (populated (Part_FileBytes p)) + count (populated (Part_FileURI p)))%nat.

(** The payload that the Type tag announces is there. *)
Definition payload_matches_type (p : Part) : bool :=
  if String.eqb (Part_Type p) PartTypeText then populated (Part_Text p)
  else if String.eqb (Part_Type p) PartTypeData then populated (Part_Data p)
  else if String.eqb (Part_Type p) PartTypeFile
       then populated (Part_FileBytes p) || populated (Part_FileURI p)
  else false.

Definition one_payload_matching_type (p : Part) : Prop :=
  payload_count p = 1%nat /\ payload_matches_type p = true.

(** The Parts that the four constructors produce. *)
Inductive constructed_Part : Part -> Prop :=
| by_NewTextPart (text : string) :
    constructed_Part (NewTextPart text)
| by_NewDataPart (data : any) :
    constructed_Part (NewDataPart data)
| by_NewFilePart (fileBytes : bytes) (mimeType fileName : string) :
    constructed_Part (NewFilePart fileBytes mimeType fileName)
| by_NewFileUriPart (fileUri mimeType fileName : string) :
    constructed_Part (NewFileUriPart fileUri mimeType fileName).

(** ** UTF-8

    The specification calls the string of an identifier a UTF-8 string.
    [utf8_ValidString] is the test of Go's [unicode/utf8.ValidString]: the
    bytes of the string are a sequence of well-formed encodings, in the
    ranges of RFC 3629 (no overlong form, no surrogate, nothing above
    U+10FFFF). The package never calls it. *)

Definition byte_in (lo hi b : N) : bool := ((lo <=? b) && (b <=? hi))%N.

Definition utf8_continuation (b : N) : bool := byte_in 0x80 0xBF b.

(** The second byte of a three-byte encoding led by [b0]. *)
Definition utf8_second_of_3 (b0 b1 : N) : bool :=
  if (b0 =? 0xE0)%N then byte_in 0xA0 0xBF b1
  else if (b0 =? 0xED)%N then byte_in 0x80 0x9F b1
  else utf8_continuation b1.

(** The second byte of a four-byte encoding led by [b0]. *)
Definition utf8_second_of_4 (b0 b1 : N) : bool :=
  if (b0 =? 0xF0)%N then byte_in 0x90 0xBF b1
  else if (b0 =? 0xF4)%N then byte_in 0x80 0x8F b1
  else utf8_continuation b1.

Fixpoint utf8_valid_bytes (l : list N) : bool :=
  match l with
  | [] => true
  | b0 :: r0 =>
      if (b0 <=? 0x7F)%N then utf8_valid_bytes r0
      else if byte_in 0xC2 0xDF b0 then
        match r0 with
        | b1 :: r1 => utf8_continuation b1 && utf8_valid_bytes r1
        | _ => false
        end
      else if byte_in 0xE0 0xEF b0 then
        match r0 with
        | b1 :: b2 :: r2 =>
            utf8_second_of_3 b0 b1 && utf8_continuation b2 && utf8_valid_bytes r2
        | _ => false
        end
      else if byte_in 0xF0 0xF4 b0 then
        match r0 with
        | b1 :: b2 :: b3 :: r3 =>
            utf8_second_of_4 b0 b1 && utf8_continuation b2 && utf8_continuation b3
            && utf8_valid_bytes r3
        | _ => false
        end
      else false
  end.

Definition utf8_ValidString (s : string) : bool :=
  utf8_valid_bytes (map N_of_ascii (list_ascii_of_string s)).

(** The one-byte string [\xff], which is not UTF-8. *)
Definition string_xff : string := String (ascii_of_N 0xFF) EmptyString.

(** ** jsonrpc.go: the table of the error constructors *)

(** The ten constructors, in the order of the source: the five of JSON-RPC
    2.0, then the five of A2A. *)
Definition error_constructors : list JSONRPCError :=
  [ NewJSONParseError; NewInvalidRequestError; NewMethodNotFoundError;
    NewInvalidParamsError; NewInternalError; NewTaskNotFoundError;
    NewTaskNotCancelableError; NewPushNotificationNotSupportedError;
    NewUnsupportedOperationError; NewContentTypeNotSupportedError ].

(** ** jsonrpc.go: a scanner to run the decoder on examples

    [scan_null_only] stands for sonic's scanner where an example needs one:
    it knows the bare literal [null] and takes any other input for a JSON
    value. *)

Definition null_literal : bytes := [Byte.x6e; Byte.x75; Byte.x6c; Byte.x6c].

Definition scan_null_only (data : bytes) : json_class :=
  if list_eq_dec Byte.byte_eq_dec data null_literal then json_null else json_value.

(** ** Schema: task states *)

Definition TaskState : Type := string.
Definition TaskSubmitted : TaskState := "submitted".
Definition TaskWorking : TaskState := "working".
Definition TaskInputRequired : TaskState := "input-required".
Definition TaskCompleted : TaskState := "completed".
Definition TaskFailed : TaskState := "failed".
Definition TaskCanceled : TaskState := "canceled".

(** The values of the three string-typed enumerations of the schema. *)
Definition task_states : list TaskState :=
  [ TaskSubmitted; TaskWorking; TaskInputRequired; TaskCompleted; TaskFailed;
    TaskCanceled ].

Definition roles : list Role := [ RoleUser; RoleAgent ].

Definition part_types : list PartType := [ PartTypeText; PartTypeFile; PartTypeData ].

(** ** Package server: the options of a Server

    The declaration of [Server] is not among the sources; the options show
    four of its fields. [Middleware] is [func(http.Handler) http.Handler],
    [Logger] is [*slog.Logger], [Tracer] is [trace.Tracer], and [Rest]
    gathers the fields of [Server] that no option writes. *)

Section ServerOptions.

Variables Middleware Logger Tracer Rest : Type.

Record Server : Type := mk_Server {
  Server_endpoint : string;
  Server_handlers : list Middleware;
  Server_logger : Logger;
  Server_tracer : Tracer;
  Server_rest : Rest
}.

(** [type Option func(s *Server)]: an option updates the Server it is applied
    to; the embedding returns the updated Server. *)
Definition Option : Type := Server -> Server.

Definition WithEndpoint (endpoint : string) : Option :=
  fun s =>
    {| Server_endpoint := endpoint;
       Server_handlers := Server_handlers s;
       Server_logger := Server_logger s;
       Server_tracer := Server_tracer s;
       Server_rest := Server_rest s |}.

Definition WithHandlers (handlers : list Middleware) : Option :=
  fun s =>
    {| Server_endpoint := Server_endpoint s;
       Server_handlers := handlers;
       Server_logger := Server_logger s;
       Server_tracer := Server_tracer s;
       Server_rest := Server_rest s |}.

Definition WithLogger (logger : Logger) : Option :=
  fun s =>
    {| Server_endpoint := Server_endpoint s;
       Server_handlers := Server_handlers s;
       Server_logger := logger;
       Server_tracer := Server_tracer s;
       Server_rest := Server_rest s |}.

Definition WithTracer (tracer : Tracer) : Option :=
  fun s =>
    {| Server_endpoint := Server_endpoint s;
       Server_handlers := Server_handlers s;
       Server_logger := Server_logger s;
       Server_tracer := tracer;
       Server_rest := Server_rest s |}.

End ServerOptions.

Arguments Server_endpoint {Middleware Logger Tracer Rest} _.
Arguments Server_handlers {Middleware Logger Tracer Rest} _.
Arguments Server_logger {Middleware Logger Tracer Rest} _.
Arguments Server_tracer {Middleware Logger Tracer Rest} _.
Arguments Server_rest {Middleware Logger Tracer Rest} _.
Arguments WithEndpoint {Middleware Logger Tracer Rest} _ _.
Arguments WithHandlers {Middleware Logger Tracer Rest} _ _.
Arguments WithLogger {Middleware Logger Tracer Rest} _ _.
Arguments WithTracer {Middleware Logger Tracer Rest} _ _.

(** * Properties *)

(** ** Equality of dynamic values *)

Lemma int32_ext (a b : int32) : int32_val a = int32_val b -> a = b.
Proof.
  destruct a as [x Hx], b as [y Hy]; simpl; intros E; subst y.
  f_equal. apply UIP_dec, bool_dec.
Qed.

(** When [==] answers true, the two dynamic values are the same. *)
Lemma dynval_eqb_true (a b : dynval) : dynval_eqb a b = Some true -> a = b.
Proof.
  destruct a, b; simpl; intros H; try discriminate; injection H as H.
  - apply String.eqb_eq in H. now subst.
  - apply Z.eqb_eq, int32_ext in H. now subst.
  - apply Z.eqb_eq in H. now subst.
  - apply Bool.eqb_prop in H. now subst.
Qed.

Lemma any_eqb_true (a b : any) : any_eqb a b = Some true -> a = b.
Proof.
  destruct a as [x|], b as [y|]; simpl; intros H; try discriminate.
  - apply dynval_eqb_true in H. now subst.
  - reflexivity.
Qed.

Lemma id_eqb_true (a b : id) : id_eqb a b = Some true -> a = b.
Proof.
  unfold id_eqb. intros H. apply any_eqb_true in H.
  destruct a, b; simpl in *; congruence.
Qed.

(** On identifiers made by [NewID], [==] does not panic and it is
    reflexive. *)
Lemma id_eqb_NewID_defined (T1 T2 : IDType) (v1 : IDType_sem T1) (v2 : IDType_sem T2) :
  exists b : bool, id_eqb (NewID T1 v1) (NewID T2 v2) = Some b.
Proof. destruct T1, T2; simpl; eexists; reflexivity. Qed.

Lemma id_eqb_NewID_refl (T : IDType) (v : IDType_sem T) :
  id_eqb (NewID T v) (NewID T v) = Some true.
Proof.
  destruct T; unfold id_eqb; simpl.
  - now rewrite String.eqb_refl.
  - now rewrite Z.eqb_refl.
Qed.

(** The variant of an identifier made by [NewID] is the type argument. *)
Lemma NewID_holds_string (T : IDType) (v : IDType_sem T) (s : string) :
  holds_string (NewID T v) s <-> existT IDType_sem T v = existT IDType_sem T_string s.
Proof.
  unfold holds_string; destruct T; simpl in *; split; intros H.
  - now injection H as ->.
  - apply inj_pair2_eq_dec in H; [now subst | decide equality].
  - discriminate.
  - discriminate (f_equal (@projT1 _ _) H).
Qed.

Lemma NewID_holds_int32 (T : IDType) (v : IDType_sem T) (n : int32) :
  holds_int32 (NewID T v) n <-> existT IDType_sem T v = existT IDType_sem T_int32 n.
Proof.
  unfold holds_int32; destruct T; simpl in *; split; intros H.
  - discriminate.
  - discriminate (f_equal (@projT1 _ _) H).
  - now injection H as ->.
  - apply inj_pair2_eq_dec in H; [now subst | decide equality].
Qed.

(** ** Identifiers *)

(** The test accepts ASCII and well-formed multi-byte encodings and
    refuses a stray byte, an overlong form and a surrogate. *)
Example utf8_ValidString_examples :
  utf8_ValidString "tasks/send" = true
  /\ utf8_ValidString (String (ascii_of_N 0xC3) (String (ascii_of_N 0xA9) "")) = true
  /\ utf8_ValidString string_xff = false
  /\ utf8_ValidString (String (ascii_of_N 0xC0) (String (ascii_of_N 0x80) "")) = false
  /\ utf8_ValidString
       (String (ascii_of_N 0xED) (String (ascii_of_N 0xA0) (String (ascii_of_N 0x80) "")))
     = false.
Proof. repeat split. Qed.

(** Two calls of [NewID] give the same identifier only from the same type
    argument and the same value. *)
Lemma NewID_inj (T1 T2 : IDType) (v1 : IDType_sem T1) (v2 : IDType_sem T2) :
  NewID T1 v1 = NewID T2 v2 <-> existT IDType_sem T1 v1 = existT IDType_sem T2 v2.
Proof.
  split.
  - destruct T1, T2; simpl in v1, v2; intros H; try discriminate H;
      injection H as ->; reflexivity.
  - intros E. assert (ET : T1 = T2) by exact (f_equal (@projT1 _ _) E).
    subst T2. apply inj_pair2_eq_dec in E; [now subst | decide equality].
Qed.

(** C3, as the specification states it, fails: [NewID] stores the string
    it is given without looking at it, and a Go string need not be UTF-8;
    the identifier made from the string [\xff] holds that string. *)
Lemma NewID_string_not_utf8 :
  ~ (forall (T : IDType) (v : IDType_sem T) (s : string),
        holds_string (NewID T v) s -> utf8_ValidString s = true).
Proof.
  intros H. specialize (H T_string string_xff string_xff eq_refl).
  vm_compute in H. discriminate H.
Qed.

(** C3, amended. An identifier made by [NewID] holds the very value it was
    made from: a string exactly when the type argument is [string], and then
    the given string, which is UTF-8 exactly when the given string is; a
    32-bit signed integer exactly when the type argument is [int32], and
    then the given integer. It holds one of the two and never both. Comparing
    two such identifiers with Go's [==] always gives an answer, and the answer
    is true exactly when they were made from the same type argument and the
    same value. *)
Theorem NewID_one_variant_and_equality :
  (forall (T : IDType) (v : IDType_sem T),
      (forall s : string,
          holds_string (NewID T v) s
          <-> existT IDType_sem T v = existT IDType_sem T_string s)
      /\ (forall n : int32,
             holds_int32 (NewID T v) n
             <-> existT IDType_sem T v = existT IDType_sem T_int32 n)
      /\ ((exists s, holds_string (NewID T v) s)
          \/ (exists n, holds_int32 (NewID T v) n /\ in_int32 (int32_val n) = true))
      /\ ~ ((exists s, holds_string (NewID T v) s)
            /\ (exists n, holds_int32 (NewID T v) n)))
  /\ (forall s s' : string,
         holds_string (NewID T_string s) s'
         -> s' = s /\ utf8_ValidString s' = utf8_ValidString s)
  /\ (forall (T1 T2 : IDType) (v1 : IDType_sem T1) (v2 : IDType_sem T2),
         (exists b : bool, id_eqb (NewID T1 v1) (NewID T2 v2) = Some b)
         /\ (id_eqb (NewID T1 v1) (NewID T2 v2) = Some true
             <-> existT IDType_sem T1 v1 = existT IDType_sem T2 v2)).
Proof.
  split; [ | split].
  - intros T v. split; [ | split; [ | split]].
    + intros s. apply NewID_holds_string.
    + intros n. apply NewID_holds_int32.
    + destruct T; simpl in v.
      * left; exists v; reflexivity.
      * right; exists v; split; [reflexivity | apply int32_inrange].
    + intros [[s Hs] [n Hn]]. unfold holds_string, holds_int32 in *. congruence.
  - intros s s' H. unfold holds_string in H. simpl in H.
    injection H as ->. split; reflexivity.
  - intros T1 T2 v1 v2. split; [apply id_eqb_NewID_defined | ]. split.
    + intros E. apply NewID_inj. exact (id_eqb_true _ _ E).
    + intros E. apply NewID_inj in E. rewrite <- E. apply id_eqb_NewID_refl.
Qed.

(** The string "1" and the integer 1 are different identifiers. *)
Example NewID_string_1_is_not_int32_1 :
  id_eqb (NewID T_string "1") (NewID T_int32 (mk_int32 1 eq_refl)) = Some false.
Proof. reflexivity. Qed.

(** ** Method names *)

(** C5. The seven method-name constants are the seven strings of the
    protocol, and no two of them are the same string. *)
Theorem method_names_exact_and_distinct :
  MethodSend = "tasks/send"
  /\ MethodGet = "tasks/get"
  /\ MethodCancel = "tasks/cancel"
  /\ MethodPushNotificationSet = "tasks/pushNotification/set"
  /\ MethodPushNotificationGet = "tasks/pushNotification/get"
  /\ MethodSendSubscribe = "tasks/sendSubscribe"
  /\ MethodResubscribe = "tasks/resubscribe"
  /\ NoDup method_names.
Proof.
  repeat (split; [reflexivity | ]).
  unfold method_names.
  repeat (constructor; [simpl; intuition discriminate | ]).
  constructor.
Qed.

(** ** Envelope *)

(** C6. [NewJSONRPCMessage] sets the version to "2.0" and keeps the
    identifier it is given, whatever the identifier. *)
Theorem NewJSONRPCMessage_fields (i : id) :
  JSONRPCMessage_JSONRPC (NewJSONRPCMessage i) = "2.0"
  /\ JSONRPCMessage_ID (NewJSONRPCMessage i) = i.
Proof. split; reflexivity. Qed.

(** ** Error taxonomy *)

(** C2. Each of the ten error constructors yields the stable code of its
    kind and that kind's default message, which is not empty. *)
Theorem error_constructors_code_and_message :
  has_code_and_message NewJSONParseError (-32700) "Invalid JSON payload"
  /\ has_code_and_message NewInvalidRequestError (-32600) "Request payload validation error"
  /\ has_code_and_message NewMethodNotFoundError (-32601) "Method not found"
  /\ has_code_and_message NewInvalidParamsError (-32602) "Invalid parameters"
  /\ has_code_and_message NewInternalError (-32603) "Internal error"
  /\ has_code_and_message NewTaskNotFoundError (-32001) "Task not found"
  /\ has_code_and_message NewTaskNotCancelableError (-32002) "Task cannot be canceled"
  /\ has_code_and_message NewPushNotificationNotSupportedError (-32003)
       "Push Notification is not supported"
  /\ has_code_and_message NewUnsupportedOperationError (-32004)
       "This operation is not supported"
  /\ has_code_and_message NewContentTypeNotSupportedError (-32005)
       "Content type not supported".
Proof.
  unfold has_code_and_message.
  repeat split; try reflexivity; discriminate.
Qed.

(** C9. No error constructor fills [Data]: it is nil in each of the ten
    errors, and the constructors take no argument to fill it from. *)
Theorem error_constructors_Data_nil :
  JSONRPCError_Data NewJSONParseError = None
  /\ JSONRPCError_Data NewInvalidRequestError = None
  /\ JSONRPCError_Data NewMethodNotFoundError = None
  /\ JSONRPCError_Data NewInvalidParamsError = None
  /\ JSONRPCError_Data NewInternalError = None
  /\ JSONRPCError_Data NewTaskNotFoundError = None
  /\ JSONRPCError_Data NewTaskNotCancelableError = None
  /\ JSONRPCError_Data NewPushNotificationNotSupportedError = None
  /\ JSONRPCError_Data NewUnsupportedOperationError = None
  /\ JSONRPCError_Data NewContentTypeNotSupportedError = None.
Proof. repeat split. Qed.

(** ** Messages and artifacts *)

(** C8. [NewUserMessage] yields the role "user" and [NewAgentMessage] the
    role "agent"; both carry the given Parts, in the given order. *)
Theorem NewUserMessage_NewAgentMessage_fields (parts : list Part) :
  Message_Role (NewUserMessage parts) = "user"
  /\ Message_Parts (NewUserMessage parts) = parts
  /\ Message_Role (NewAgentMessage parts) = "agent"
  /\ Message_Parts (NewAgentMessage parts) = parts.
Proof. repeat split. Qed.

(** C7, as the specification states it, fails: [NewArtifact] accepts a
    negative index and stores it. *)
Lemma NewArtifact_negative_index :
  ~ (forall (index : Z) (title : string) (parts : list Part),
        0 <= Artifact_Index (NewArtifact index title parts)).
Proof.
  intros H. specialize (H (-1) "" []). simpl in H. lia.
Qed.

(** C7, amended. [NewArtifact] stores the index it is given unchanged, so
    the index of the Artifact is non-negative exactly when the given index
    is. *)
Theorem NewArtifact_index_kept (index : Z) (title : string) (parts : list Part) :
  Artifact_Index (NewArtifact index title parts) = index
  /\ (0 <= Artifact_Index (NewArtifact index title parts) <-> 0 <= index).
Proof. simpl. split; [reflexivity | tauto]. Qed.

(** ** Parts *)

(** C4, as the specification states it, fails: [NewDataPart] of the nil
    interface yields a Part with no payload field populated. *)
Lemma NewDataPart_nil_has_no_payload :
  ~ (forall p : Part, constructed_Part p -> one_payload_matching_type p).
Proof.
  intros H. destruct (H (NewDataPart None) (by_NewDataPart None)) as [Hcount _].
  discriminate Hcount.
Qed.

(** C4, amended. A Part made by [NewTextPart], [NewFilePart] or
    [NewFileUriPart], or by [NewDataPart] from a non-nil value, has exactly
    one payload field populated, the one its Type tag announces. A Part made
    by [NewDataPart] from the nil interface has the tag "data" and no payload
    field populated. *)
Theorem constructed_Part_payload :
  (forall text : string, one_payload_matching_type (NewTextPart text))
  /\ (forall d : dynval, one_payload_matching_type (NewDataPart (Some d)))
  /\ (forall (fileBytes : bytes) (mimeType fileName : string),
         one_payload_matching_type (NewFilePart fileBytes mimeType fileName))
  /\ (forall fileUri mimeType fileName : string,
         one_payload_matching_type (NewFileUriPart fileUri mimeType fileName))
  /\ (Part_Type (NewDataPart None) = "data"
      /\ payload_count (NewDataPart None) = 0%nat).
Proof.
  unfold one_payload_matching_type. repeat split.
Qed.

(** C10. A file Part made by [NewFilePart] or [NewFileUriPart] has a
    non-nil Metadata whose FileName is the given file name and a non-nil
    MimeType that is the given MIME type; its payload is FileBytes,
    respectively FileURI, and no other payload field is populated. *)
Theorem file_Part_metadata_and_mime :
  (forall (fileBytes : bytes) (mimeType fileName : string),
      let p := NewFilePart fileBytes mimeType fileName in
      (exists md, Part_Metadata p = Some md /\ Metadata_FileName md = Some fileName)
      /\ Part_MimeType p = Some mimeType
      /\ Part_FileBytes p = Some fileBytes
      /\ payload_count p = 1%nat)
  /\ (forall fileUri mimeType fileName : string,
         let p := NewFileUriPart fileUri mimeType fileName in
         (exists md, Part_Metadata p = Some md /\ Metadata_FileName md = Some fileName)
         /\ Part_MimeType p = Some mimeType
         /\ Part_FileURI p = Some fileUri
         /\ payload_count p = 1%nat).
Proof.
  split; intros; subst p; simpl; (split; [eexists; split; reflexivity | ]);
    repeat split.
Qed.

(** ** Encoding and decoding identifiers *)

(** [id.MarshalJSON] returns on no identifier: the encoder it calls calls
    it back, at every depth. *)
Lemma id_MarshalJSON_no_result (fuel : nat) (i : id) :
  id_MarshalJSON fuel i = None.
Proof.
  induction fuel as [| fuel IH]; simpl; [reflexivity | exact IH].
Qed.


(** C1, evaluated on the code. For an identifier made by [NewID],
    [id.MarshalJSON] produces no bytes whatever the depth of calls it is
    allowed, so encoding followed by decoding produces no identifier. *)
Theorem id_roundtrip_no_result
    (classify : bytes -> json_class) (fuel : nat) (T : IDType) (v : IDType_sem T) :
  id_MarshalJSON fuel (NewID T v) = None
  /\ id_roundtrip classify fuel (NewID T v) = None.
Proof.
  unfold id_roundtrip. rewrite id_MarshalJSON_no_result. split; reflexivity.
Qed.

(** * Further properties of the code *)

(** ** The error table *)

(** X1. No two of the ten error constructors share a code, and no two share
    a message: the code of an error, and equally its message, tells which
    constructor made it. *)
Theorem error_codes_and_messages_distinct :
  NoDup (map JSONRPCError_Code error_constructors)
  /\ NoDup (map JSONRPCError_Message error_constructors).
Proof.
  split; cbv [map error_constructors];
    repeat (constructor; [cbv; intuition discriminate | ]); constructor.
Qed.

(** ** Identifiers and the zero value *)

(** X2. [NewID] never makes the zero value [id{}], not even from the empty
    string or from the integer 0; so the ID of a message made from it is
    never the zero value that the [omitzero] tag leaves out. *)
Theorem NewID_never_zero (T : IDType) (v : IDType_sem T) :
  id_eqb (NewID T v) id_zero = Some false
  /\ id_eqb (JSONRPCMessage_ID (NewJSONRPCMessage (NewID T v))) id_zero = Some false
  /\ NewID T v <> id_zero.
Proof.
  destruct T; simpl in v; repeat split; try reflexivity; discriminate.
Qed.

(** ** Decoding identifiers *)

(** Whenever [id.UnmarshalJSON] returns, the receiver holds the zero
    value. *)
Lemma id_UnmarshalJSON_result_zero (classify : bytes -> json_class) (fuel : nat) :
  forall (data : bytes) (cell r : id) (e : error),
    id_UnmarshalJSON classify fuel data cell = Some (r, e) -> r = id_zero.
Proof.
  induction fuel as [| fuel IH]; intros data cell r e; simpl.
  - discriminate.
  - unfold sonic_Unmarshal_ptr_ptr_id.
    destruct (classify data) eqn:Hc; intros H.
    + now injection H as <- _.
    + now injection H as <- _.
    + exact (IH _ _ _ _ H).
Qed.

(** X3. [id.UnmarshalJSON] stores no decoded identifier: on no input, from
    no previous content and at no depth of calls does it return with the
    receiver holding a string or an int32 as [NewID] makes them. *)
Theorem id_UnmarshalJSON_never_decodes
    (classify : bytes -> json_class) (fuel : nat) (data : bytes) (cell : id)
    (T : IDType) (v : IDType_sem T) (e : error) :
  id_UnmarshalJSON classify fuel data cell <> Some (NewID T v, e).
Proof.
  intros H. apply id_UnmarshalJSON_result_zero in H.
  destruct T; discriminate H.
Qed.

(** X4. On the JSON literal [null], [id.UnmarshalJSON] returns a nil error
    and leaves the receiver at the zero value, whatever it held before;
    one level of calls is enough. *)
Theorem id_UnmarshalJSON_null
    (classify : bytes -> json_class) (data : bytes) :
  classify data = json_null ->
  forall (fuel : nat) (cell : id),
    id_UnmarshalJSON classify (S fuel) data cell = Some (id_zero, None).
Proof.
  intros Hn fuel cell. simpl. unfold sonic_Unmarshal_ptr_ptr_id.
  now rewrite Hn.
Qed.

Lemma id_UnmarshalJSON_null_witness :
  id_UnmarshalJSON scan_null_only 1 null_literal (NewID T_string "x")
  = Some (id_zero, None).
Proof.
  apply (id_UnmarshalJSON_null scan_null_only null_literal eq_refl 0%nat).
Defined.


(** ** Parts: which fields go with which tag *)

(** X6. A Part made by one of the four constructors has one of the three
    tags, and the tag fixes which fields can be set: a text Part has its
    Text and nothing else; a data Part has nothing besides Data; a file
    Part has MimeType, Metadata and exactly one of FileBytes and FileURI,
    and neither Text nor Data. *)
Theorem constructed_Part_fields_by_tag (p : Part) :
  constructed_Part p ->
  (Part_Type p = PartTypeText
   /\ populated (Part_Text p) = true
   /\ Part_Data p = None /\ Part_FileBytes p = None /\ Part_FileURI p = None
   /\ Part_MimeType p = None /\ Part_Metadata p = None)
  \/ (Part_Type p = PartTypeData
      /\ Part_Text p = None /\ Part_FileBytes p = None /\ Part_FileURI p = None
      /\ Part_MimeType p = None /\ Part_Metadata p = None)
  \/ (Part_Type p = PartTypeFile
      /\ Part_Text p = None /\ Part_Data p = None
      /\ xorb (populated (Part_FileBytes p)) (populated (Part_FileURI p)) = true
      /\ populated (Part_MimeType p) = true
      /\ populated (Part_Metadata p) = true).
Proof.
  intros [text | data | fileBytes mimeType fileName | fileUri mimeType fileName];
    simpl.
  - left. repeat split.
  - right; left. repeat split.
  - right; right. repeat split.
  - right; right. repeat split.
Qed.

Lemma constructed_Part_fields_by_tag_witness :
  let p := NewFileUriPart "https://example.org/a.txt" "text/plain" "a.txt" in
  (Part_Type p = PartTypeText
   /\ populated (Part_Text p) = true
   /\ Part_Data p = None /\ Part_FileBytes p = None /\ Part_FileURI p = None
   /\ Part_MimeType p = None /\ Part_Metadata p = None)
  \/ (Part_Type p = PartTypeData
      /\ Part_Text p = None /\ Part_FileBytes p = None /\ Part_FileURI p = None
      /\ Part_MimeType p = None /\ Part_Metadata p = None)
  \/ (Part_Type p = PartTypeFile
      /\ Part_Text p = None /\ Part_Data p = None
      /\ xorb (populated (Part_FileBytes p)) (populated (Part_FileURI p)) = true
      /\ populated (Part_MimeType p) = true
      /\ populated (Part_Metadata p) = true).
Proof.
  intros p. apply (constructed_Part_fields_by_tag p).
  apply (by_NewFileUriPart "https://example.org/a.txt" "text/plain" "a.txt").
Defined.

(** ** The schema's enumerations *)

(** X7. The six task states are six different strings, the two roles are
    different, and the three part types are different. *)
Theorem schema_enumerations_distinct :
  NoDup task_states /\ NoDup roles /\ NoDup part_types.
Proof.
  repeat split; cbv [task_states roles part_types];
    repeat (constructor; [cbv; intuition discriminate | ]); constructor.
Qed.

(** ** Server options *)

Section ServerOptionLaws.

Context {Middleware Logger Tracer Rest : Type}.
Implicit Type s : Server Middleware Logger Tracer Rest.

(** X8. An option writes its argument to its field, and when the same kind
    of option is applied twice the later one alone counts; in particular
    [WithHandlers] replaces the handlers and does not append to them. *)
Theorem Server_option_set_and_override s
    (endpoint endpoint' : string) (handlers handlers' : list Middleware)
    (logger logger' : Logger) (tracer tracer' : Tracer) :
  (Server_endpoint (WithEndpoint endpoint s) = endpoint
   /\ WithEndpoint endpoint' (WithEndpoint endpoint s) = WithEndpoint endpoint' s)
  /\ (Server_handlers (WithHandlers handlers s) = handlers
      /\ WithHandlers handlers' (WithHandlers handlers s) = WithHandlers handlers' s)
  /\ (Server_logger (WithLogger logger s) = logger
      /\ WithLogger logger' (WithLogger logger s) = WithLogger logger' s)
  /\ (Server_tracer (WithTracer tracer s) = tracer
      /\ WithTracer tracer' (WithTracer tracer s) = WithTracer tracer' s).
Proof. repeat split. Qed.

(** X9. Options of different kinds do not interfere: applied in either
    order they give the same Server, and none touches a field that no
    option writes. *)
Theorem Server_options_commute s
    (endpoint : string) (handlers : list Middleware) (logger : Logger)
    (tracer : Tracer) :
  WithEndpoint endpoint (WithHandlers handlers s)
  = WithHandlers handlers (WithEndpoint endpoint s)
  /\ WithEndpoint endpoint (WithLogger logger s)
     = WithLogger logger (WithEndpoint endpoint s)
  /\ WithEndpoint endpoint (WithTracer tracer s)
     = WithTracer tracer (WithEndpoint endpoint s)
  /\ WithHandlers handlers (WithLogger logger s)
     = WithLogger logger (WithHandlers handlers s)
  /\ WithHandlers handlers (WithTracer tracer s)
     = WithTracer tracer (WithHandlers handlers s)
  /\ WithLogger logger (WithTracer tracer s)
     = WithTracer tracer (WithLogger logger s)
  /\ Server_rest (WithEndpoint endpoint s) = Server_rest s
  /\ Server_rest (WithHandlers handlers s) = Server_rest s
  /\ Server_rest (WithLogger logger s) = Server_rest s
  /\ Server_rest (WithTracer tracer s) = Server_rest s.
Proof. repeat split. Qed.

End ServerOptionLaws.
